(** * JTAG-AXI bridge LED control over a Digilent USB-JTAG adapter

    A shallow embedding of [c_examples/digilent_jtag_control.c].

    - C integers are [Z]; a [uint8_t] buffer is a [list Z] of byte values.
    - A pointer that may be [NULL] is an [option].
    - The Digilent Adept runtime (djtg.h, dmgr.h) is an external library:
      it is an interface, [Adept], over an abstract adapter state.
    - Every driver function is a computation in [M]: it threads the adapter
      state and logs the Adept calls it makes, in program order, each with
      the [BOOL] it returned.
    - Console output ([printf]) and delays ([usleep]) touch neither the
      adapter nor the handle and are left out. *)

From Stdlib Require Import String ZArith Bool Lia List.
Import ListNotations.
Open Scope Z_scope.

(** ** Protocol constants (the [#define]s) *)

Definition USER1_INSTRUCTION : Z := 0x02.
Definition IR_LENGTH : Z := 6.
Definition DR_LENGTH : Z := 96.
Definition CMD_WRITE : Z := 0x00000001.
Definition CMD_READ : Z := 0x00000002.
Definition LED_BASE_ADDR : Z := 0x43C00000.

(** ** The handle *)

Record jtag_axi_handle_t : Type := mk_handle {
  hif : Z;
  is_connected : bool;
  device_name : string
}.

(** [jtag_axi_handle_t jtag_handle = {0};] *)
Definition zero_handle : jtag_axi_handle_t :=
  {| hif := 0; is_connected := false; device_name := EmptyString |}.

(** ** Calls into the Adept runtime, as the driver issues them *)

Inductive Call : Type :=
| CDmgrOpen (name : string)
| CDmgrClose (h : Z)
| CDmgrEnumDevices
| CDmgrGetDvc (i : Z)
| CDjtgEnable (h : Z)
| CDjtgDisable (h : Z)
| CDjtgGetProperties (h : Z)
| CDjtgSetSpeed (h : Z) (hz : Z)
| CDjtgSetBatchMode (h : Z) (on : bool)
| CDjtgPutTmsBits (h : Z) (tms : Z) (cbit : Z)
| CDjtgPutTdiBits (h : Z) (snd : list Z) (rcv : bool) (cbit : Z).

(** The Adept runtime over an adapter state [T].  Each entry returns the
    [BOOL] of the C function, what it stores through its out-pointers, and
    the next adapter state.  [adept_PutTdiBits] receives the receive buffer
    ([None] for [NULL]) and returns its contents after the call. *)
Class Adept (T : Type) : Type := {
  dprpJtag : Z;
  djtgpropSpeed : Z;
  djtgpropBatch : Z;
  adept_Open : string -> T -> bool * Z * T;
  adept_Close : Z -> T -> bool * T;
  adept_EnumDevices : T -> bool * Z * T;
  adept_GetDvc : Z -> T -> bool * string * Z * T;
  adept_Enable : Z -> T -> bool * T;
  adept_Disable : Z -> T -> bool * T;
  adept_GetProperties : Z -> T -> bool * Z * T;
  adept_SetSpeed : Z -> Z -> T -> bool * T;
  adept_SetBatchMode : Z -> bool -> T -> bool * T;
  adept_PutTmsBits : Z -> Z -> Z -> T -> bool * T;
  adept_PutTdiBits :
    Z -> list Z -> option (list Z) -> Z -> T -> bool * option (list Z) * T
}.

(** ** The computation monad: adapter state and the log of calls *)

(** A logged call: the call and the [BOOL] it returned. *)
Definition Event : Type := (Call * bool)%type.

Definition M (T A : Type) : Type := T -> A * T * list Event.

Definition ret {T A} (a : A) : M T A := fun t => (a, t, []).

Definition bind {T A B} (m : M T A) (k : A -> M T B) : M T B :=
  fun t =>
    let '(a, t1, c1) := m t in
    let '(b, t2, c2) := k a t1 in
    (b, t2, c1 ++ c2).

Declare Scope jtag_scope.
Delimit Scope jtag_scope with jtag.
Notation "x <- m ;; k" := (bind m (fun x => k))
  (at level 61, m at next level, right associativity) : jtag_scope.
Notation "m ;;; k" := (bind m (fun _ => k))
  (at level 61, right associativity) : jtag_scope.
Open Scope jtag_scope.

Definition result {T A} (r : A * T * list Event) : A := fst (fst r).
Definition adapter {T A} (r : A * T * list Event) : T := snd (fst r).
Definition log {T A} (r : A * T * list Event) : list Event := snd r.
Definition calls {T A} (r : A * T * list Event) : list Call := map fst (log r).

Section Driver.

Context {T : Type} {adept : Adept T}.

(** *** The Adept entry points, logged *)

Definition DmgrOpen (name : string) : M T (bool * Z) :=
  fun t => let '(ok, h, t') := adept_Open name t in ((ok, h), t', [(CDmgrOpen name, ok)]).

Definition DmgrClose (h : Z) : M T bool :=
  fun t => let '(ok, t') := adept_Close h t in (ok, t', [(CDmgrClose h, ok)]).

Definition DmgrEnumDevices : M T (bool * Z) :=
  fun t => let '(ok, n, t') := adept_EnumDevices t in ((ok, n), t', [(CDmgrEnumDevices, ok)]).

Definition DmgrGetDvc (i : Z) : M T (bool * string * Z) :=
  fun t =>
    let '(ok, name, dprp, t') := adept_GetDvc i t in
    ((ok, name, dprp), t', [(CDmgrGetDvc i, ok)]).

Definition DjtgEnable (h : Z) : M T bool :=
  fun t => let '(ok, t') := adept_Enable h t in (ok, t', [(CDjtgEnable h, ok)]).

Definition DjtgDisable (h : Z) : M T bool :=
  fun t => let '(ok, t') := adept_Disable h t in (ok, t', [(CDjtgDisable h, ok)]).

Definition DjtgGetProperties (h : Z) : M T (bool * Z) :=
  fun t =>
    let '(ok, p, t') := adept_GetProperties h t in
    ((ok, p), t', [(CDjtgGetProperties h, ok)]).

Definition DjtgSetSpeed (h hz : Z) : M T bool :=
  fun t => let '(ok, t') := adept_SetSpeed h hz t in (ok, t', [(CDjtgSetSpeed h hz, ok)]).

Definition DjtgSetBatchMode (h : Z) (on : bool) : M T bool :=
  fun t =>
    let '(ok, t') := adept_SetBatchMode h on t in (ok, t', [(CDjtgSetBatchMode h on, ok)]).

(** [DjtgPutTmsBits(hif, tms, NULL, cbit, fFalse)] *)
Definition DjtgPutTmsBits (h tms cbit : Z) : M T bool :=
  fun t =>
    let '(ok, t') := adept_PutTmsBits h tms cbit t in
    (ok, t', [(CDjtgPutTmsBits h tms cbit, ok)]).

(** [DjtgPutTdiBits(hif, snd, rcv, cbit, fFalse)] *)
Definition DjtgPutTdiBits (h : Z) (snd : list Z) (rcv : option (list Z)) (cbit : Z)
  : M T (bool * option (list Z)) :=
  fun t =>
    let '(ok, rcv', t') := adept_PutTdiBits h snd rcv cbit t in
    ((ok, rcv'), t',
     [(CDjtgPutTdiBits h snd (match rcv with Some _ => true | None => false end) cbit, ok)]).

(** *** disconnect_device *)

(** Returns the status and the handle as the call leaves it. *)
Definition disconnect_device (handle : option jtag_axi_handle_t)
  : M T (Z * option jtag_axi_handle_t) :=
  match handle with
  | None => ret (0, None)
  | Some h =>
    if negb (is_connected h) then ret (0, Some h) else
    DjtgDisable (hif h) ;;;
    DmgrClose (hif h) ;;;
    ret (0, Some {| hif := hif h; is_connected := false;
                    device_name := device_name h |})
  end.

(** *** jtag_shift_ir *)

Definition jtag_shift_ir (handle : option jtag_axi_handle_t) (instruction : Z)
  : M T Z :=
  match handle with
  | None => ret (-1)
  | Some h =>
    if negb (is_connected h) then ret (-1) else
    ok <- DjtgPutTmsBits (hif h) 0x1F 5 ;;
    if negb ok then ret (-1) else
    ok <- DjtgPutTmsBits (hif h) 0x01 2 ;;
    if negb ok then ret (-1) else
    r <- DjtgPutTdiBits (hif h) [instruction] None IR_LENGTH ;;
    if negb (fst r) then ret (-1) else
    ok <- DjtgPutTmsBits (hif h) 0x03 2 ;;
    if negb ok then ret (-1) else
    ret 0
  end.

(** *** jtag_shift_dr *)

(** Returns the status and the contents of the [tdo_data] buffer. *)
Definition jtag_shift_dr (handle : option jtag_axi_handle_t)
    (tdi_data : list Z) (tdo_data : option (list Z)) (bit_count : Z)
  : M T (Z * option (list Z)) :=
  match handle with
  | None => ret (-1, tdo_data)
  | Some h =>
    if negb (is_connected h) then ret (-1, tdo_data) else
    ok <- DjtgPutTmsBits (hif h) 0x01 3 ;;
    if negb ok then ret (-1, tdo_data) else
    r <- DjtgPutTdiBits (hif h) tdi_data tdo_data bit_count ;;
    if negb (fst r) then ret (-1, snd r) else
    ok <- DjtgPutTmsBits (hif h) 0x03 2 ;;
    if negb ok then ret (-1, snd r) else
    ret (0, snd r)
  end.

(** *** The 96-bit command frames *)

Definition byte_of (v shift : Z) : Z := Z.land (Z.shiftr v shift) 0xFF.

(** [cmd_data] of [led_write], after the three packing blocks. *)
Definition led_write_cmd_data (led_pattern : Z) : list Z :=
  [ Z.land CMD_WRITE 0xFF; byte_of CMD_WRITE 8; byte_of CMD_WRITE 16; byte_of CMD_WRITE 24;
    Z.land LED_BASE_ADDR 0xFF; byte_of LED_BASE_ADDR 8; byte_of LED_BASE_ADDR 16;
    byte_of LED_BASE_ADDR 24;
    Z.land led_pattern 0xF; 0; 0; 0 ].

(** [cmd_data] of [led_read]: bytes 8..11 keep the [{0}] initialiser. *)
Definition led_read_cmd_data : list Z :=
  [ Z.land CMD_READ 0xFF; byte_of CMD_READ 8; byte_of CMD_READ 16; byte_of CMD_READ 24;
    Z.land LED_BASE_ADDR 0xFF; byte_of LED_BASE_ADDR 8; byte_of LED_BASE_ADDR 16;
    byte_of LED_BASE_ADDR 24;
    0; 0; 0; 0 ].

(** [uint8_t response[12] = {0};] *)
Definition zero_response : list Z := repeat 0 12.

(** [response[8] & 0xF] *)
Definition led_extract (response : list Z) : Z := Z.land (nth 8 response 0) 0xF.

(** *** led_write *)

Definition led_write (handle : option jtag_axi_handle_t) (led_pattern : Z) : M T Z :=
  match handle with
  | None => ret (-1)
  | Some h =>
    if negb (is_connected h) then ret (-1) else
    let cmd_data := led_write_cmd_data led_pattern in
    rc <- jtag_shift_ir handle USER1_INSTRUCTION ;;
    if negb (rc =? 0) then ret (-1) else
    r <- jtag_shift_dr handle cmd_data None DR_LENGTH ;;
    if negb (fst r =? 0) then ret (-1) else
    ret 0
  end.

(** *** led_read *)

(** [led_data] is the cell the out-pointer designates ([None] for [NULL]);
    the call returns the status and the cell as it leaves it. *)
Definition led_read (handle : option jtag_axi_handle_t) (led_data : option Z)
  : M T (Z * option Z) :=
  match handle with
  | None => ret (-1, led_data)
  | Some h =>
    if negb (is_connected h) then ret (-1, led_data) else
    match led_data with
    | None => ret (-1, led_data)
    | Some _ =>
      let cmd_data := led_read_cmd_data in
      rc <- jtag_shift_ir handle USER1_INSTRUCTION ;;
      if negb (rc =? 0) then ret (-1, led_data) else
      r <- jtag_shift_dr handle cmd_data (Some zero_response) DR_LENGTH ;;
      if negb (fst r =? 0) then ret (-1, led_data) else
      let response := match snd r with Some b => b | None => zero_response end in
      ret (0, Some (led_extract response))
    end
  end.

(** *** enumerate_devices *)

Fixpoint list_devices (indices : list Z) : M T unit :=
  match indices with
  | [] => ret tt
  | i :: rest => DmgrGetDvc i ;;; list_devices rest
  end.

Definition enumerate_devices : M T Z :=
  r <- DmgrEnumDevices ;;
  if negb (fst r) then ret 0 else
  let device_count := snd r in
  list_devices (map Z.of_nat (seq 0 (Z.to_nat device_count))) ;;;
  ret device_count.

(** *** connect_device *)

Definition set_name (h : jtag_axi_handle_t) (n : string) : jtag_axi_handle_t :=
  {| hif := hif h; is_connected := is_connected h; device_name := n |}.

Definition set_hif (h : jtag_axi_handle_t) (v : Z) : jtag_axi_handle_t :=
  {| hif := v; is_connected := is_connected h; device_name := device_name h |}.

Definition set_connected (h : jtag_axi_handle_t) (b : bool) : jtag_axi_handle_t :=
  {| hif := hif h; is_connected := b; device_name := device_name h |}.

(** The part of [connect_device] after the device name is known. *)
Definition open_device (h : jtag_axi_handle_t) : M T (Z * option jtag_axi_handle_t) :=
  r <- DmgrOpen (device_name h) ;;
  let h := set_hif h (snd r) in
  if negb (fst r) then ret (-1, Some h) else
  ok <- DjtgEnable (hif h) ;;
  if negb ok then (DmgrClose (hif h) ;;; ret (-1, Some h)) else
  p <- DjtgGetProperties (hif h) ;;
  (if fst p then
     (if negb (Z.land (snd p) djtgpropSpeed =? 0)
      then DjtgSetSpeed (hif h) 30000000 ;;; ret tt else ret tt) ;;;
     (if negb (Z.land (snd p) djtgpropBatch =? 0)
      then DjtgSetBatchMode (hif h) true ;;; ret tt else ret tt)
   else ret tt) ;;;
  ret (0, Some (set_connected h true)).

Definition connect_device (handle : option jtag_axi_handle_t)
    (name : option string) : M T (Z * option jtag_axi_handle_t) :=
  match handle with
  | None => ret (-1, None)
  | Some h =>
    match name with
    | Some n => open_device (set_name h n)
    | None =>
      r <- DmgrGetDvc 0 ;;
      let h := set_name h (snd (fst r)) in
      if negb (fst (fst r)) then ret (-1, Some h) else
      open_device h
    end
  end.

(** *** test_led_patterns *)

Definition test_patterns : list Z := [0x0; 0xF; 0xA; 0x5; 0x1; 0x2; 0x4; 0x8].

Fixpoint test_loop (handle : option jtag_axi_handle_t) (patterns : list Z)
  : M T unit :=
  match patterns with
  | [] => ret tt
  | p :: rest =>
    rc <- led_write handle p ;;
    (if rc =? 0 then led_read handle (Some 0) ;;; ret tt else ret tt) ;;;
    test_loop handle rest
  end.

Definition test_led_patterns (handle : option jtag_axi_handle_t) : M T unit :=
  test_loop handle test_patterns.

(** *** main *)

(** [strtol(s, NULL, 0)] of the C library. *)
Context (strtol : string -> Z).

Definition main (argv : list string) : M T Z :=
  let argc := Z.of_nat (List.length argv) in
  r <- DmgrOpen EmptyString ;;
  if negb (fst r) then ret 1 else
  let g_dmgr := snd r in
  n <- enumerate_devices ;;
  if n =? 0 then (DmgrClose g_dmgr ;;; ret 1) else
  c <- connect_device (Some zero_handle) None ;;
  if negb (fst c =? 0) then (DmgrClose g_dmgr ;;; ret 1) else
  let jtag_handle := snd c in
  (if 1 <? argc then
     let cmd := nth 1 argv EmptyString in
     if String.eqb cmd "test"%string then test_led_patterns jtag_handle
     else if String.eqb cmd "write"%string && (2 <? argc) then
       let pattern := (strtol (nth 2 argv EmptyString)) mod 256 in
       led_write jtag_handle pattern ;;; ret tt
     else if String.eqb cmd "read"%string then
       led_read jtag_handle (Some 0) ;;; ret tt
     else ret tt
   else test_led_patterns jtag_handle) ;;;
  disconnect_device jtag_handle ;;;
  DmgrClose g_dmgr ;;;
  ret 0.

End Driver.

Arguments main {T adept} strtol argv.

(** ** A scripted adapter

    An adapter whose state is the list of outcomes of the Adept calls still
    to come, in order; once the list is used up every call succeeds.  It
    reports one JTAG device with speed and batch support, and loops TDI back
    into the receive buffer. *)

Module Scripted.

Definition script : Type := list bool.

Definition next (s : script) : bool * script :=
  match s with
  | [] => (true, [])
  | b :: s' => (b, s')
  end.

#[export] Instance adept : Adept script := {|
  dprpJtag := 1;
  djtgpropSpeed := 1;
  djtgpropBatch := 2;
  adept_Open := fun _ s => let '(b, s') := next s in (b, 7, s');
  adept_Close := fun _ s => next s;
  adept_EnumDevices := fun s => let '(b, s') := next s in (b, 1, s');
  adept_GetDvc := fun _ s => let '(b, s') := next s in (b, "JtagHs2"%string, 1, s');
  adept_Enable := fun _ s => next s;
  adept_Disable := fun _ s => next s;
  adept_GetProperties := fun _ s => let '(b, s') := next s in (b, 3, s');
  adept_SetSpeed := fun _ _ s => next s;
  adept_SetBatchMode := fun _ _ s => next s;
  adept_PutTmsBits := fun _ _ _ s => next s;
  adept_PutTdiBits := fun _ snd rcv _ s =>
    let '(b, s') := next s in
    (b, match rcv with Some _ => Some snd | None => None end, s')
|}.

(** A handle as [connect_device] leaves it on this adapter. *)
Definition open_handle : option jtag_axi_handle_t :=
  Some {| hif := 7; is_connected := true; device_name := "JtagHs2"%string |}.

Definition closed_handle : option jtag_axi_handle_t :=
  Some {| hif := 7; is_connected := false; device_name := "JtagHs2"%string |}.

(** The first [n] calls succeed and the next one fails. *)
Definition fail_at (n : nat) : script := repeat true n ++ [false].

End Scripted.

(** ** The TAP controller of IEEE 1149.1

    The sixteen-state controller in the target device.  It is not part of
    the driver; the driver's TMS sequences are written against it. *)

Inductive TapState : Type :=
| TestLogicReset | RunTestIdle
| SelectDRScan | CaptureDR | ShiftDR | Exit1DR | PauseDR | Exit2DR | UpdateDR
| SelectIRScan | CaptureIR | ShiftIR | Exit1IR | PauseIR | Exit2IR | UpdateIR.

(** One rising edge of TCK with the given TMS level. *)
Definition tap_step (s : TapState) (tms : bool) : TapState :=
  match s, tms with
  | TestLogicReset, false => RunTestIdle
  | TestLogicReset, true => TestLogicReset
  | RunTestIdle, false => RunTestIdle
  | RunTestIdle, true => SelectDRScan
  | SelectDRScan, false => CaptureDR
  | SelectDRScan, true => SelectIRScan
  | CaptureDR, false => ShiftDR
  | CaptureDR, true => Exit1DR
  | ShiftDR, false => ShiftDR
  | ShiftDR, true => Exit1DR
  | Exit1DR, false => PauseDR
  | Exit1DR, true => UpdateDR
  | PauseDR, false => PauseDR
  | PauseDR, true => Exit2DR
  | Exit2DR, false => ShiftDR
  | Exit2DR, true => UpdateDR
  | UpdateDR, false => RunTestIdle
  | UpdateDR, true => SelectDRScan
  | SelectIRScan, false => CaptureIR
  | SelectIRScan, true => TestLogicReset
  | CaptureIR, false => ShiftIR
  | CaptureIR, true => Exit1IR
  | ShiftIR, false => ShiftIR
  | ShiftIR, true => Exit1IR
  | Exit1IR, false => PauseIR
  | Exit1IR, true => UpdateIR
  | PauseIR, false => PauseIR
  | PauseIR, true => Exit2IR
  | Exit2IR, false => ShiftIR
  | Exit2IR, true => UpdateIR
  | UpdateIR, false => RunTestIdle
  | UpdateIR, true => SelectDRScan
  end.

Definition tap_run (s : TapState) (tms : list bool) : TapState :=
  fold_left tap_step tms s.

(** The first [cbit] bits of [v], least significant first: the order in
    which the adapter clocks a bit buffer out. *)
Definition bits_lsb_first (v : Z) (cbit : Z) : list bool :=
  map (fun i => Z.testbit v (Z.of_nat i)) (seq 0 (Z.to_nat cbit)).

(** The same bits, most significant first. *)
Definition bits_msb_first (v : Z) (cbit : Z) : list bool :=
  rev (bits_lsb_first v cbit).

(** TMS levels an Adept call puts on the wire, one per TCK cycle.  A TDI
    shift holds TMS low for each of its bits; calls other than the two
    shifts do not clock the TAP. *)
Definition tms_of_call (order : Z -> Z -> list bool) (c : Call) : list bool :=
  match c with
  | CDjtgPutTmsBits _ tms cbit => order tms cbit
  | CDjtgPutTdiBits _ _ _ cbit => repeat false (Z.to_nat cbit)
  | _ => []
  end.

(** The TAP state after each call of a sequence, starting from [s]. *)
Fixpoint tap_trace (order : Z -> Z -> list bool) (s : TapState) (cs : list Call)
  : list TapState :=
  match cs with
  | [] => []
  | c :: rest =>
    let s' := tap_run s (tms_of_call order c) in
    s' :: tap_trace order s' rest
  end.

(** Every state the TAP passes through, cycle by cycle. *)
Fixpoint tap_path (s : TapState) (tms : list bool) : list TapState :=
  match tms with
  | [] => []
  | b :: rest => tap_step s b :: tap_path (tap_step s b) rest
  end.

Definition tap_visits (order : Z -> Z -> list bool) (s : TapState) (cs : list Call)
  : list TapState :=
  tap_path s (concat (map (tms_of_call order) cs)).

Definition TapState_eqb (a b : TapState) : bool :=
  match a, b with
  | TestLogicReset, TestLogicReset | RunTestIdle, RunTestIdle
  | SelectDRScan, SelectDRScan | CaptureDR, CaptureDR | ShiftDR, ShiftDR
  | Exit1DR, Exit1DR | PauseDR, PauseDR | Exit2DR, Exit2DR | UpdateDR, UpdateDR
  | SelectIRScan, SelectIRScan | CaptureIR, CaptureIR | ShiftIR, ShiftIR
  | Exit1IR, Exit1IR | PauseIR, PauseIR | Exit2IR, Exit2IR | UpdateIR, UpdateIR => true
  | _, _ => false
  end.

(** ** Vocabulary of the properties *)

(** The guard [!handle || !handle->is_connected] passes. *)
Definition ready (handle : option jtag_axi_handle_t) : bool :=
  match handle with
  | Some h => is_connected h
  | None => false
  end.

(** A 32-bit field as four bytes, least significant byte first: the frame
    format as the protocol describes it, to compare with the packing code. *)
Definition le32 (v : Z) : list Z :=
  [ v mod 256; (v / 256) mod 256; (v / 65536) mod 256; (v / 16777216) mod 256 ].

(** The 32-bit value held by four little-endian bytes at offset [off]. *)
Definition field32 (frame : list Z) (off : nat) : Z :=
  nth off frame 0 + 256 * nth (off + 1) frame 0
  + 65536 * nth (off + 2) frame 0 + 16777216 * nth (off + 3) frame 0.

(** The Adept calls of a complete IR shift cycle and of a complete DR shift
    cycle, in order. *)
Definition ir_plan (h instruction : Z) : list Call :=
  [ CDjtgPutTmsBits h 0x1F 5; CDjtgPutTmsBits h 0x01 2;
    CDjtgPutTdiBits h [instruction] false IR_LENGTH; CDjtgPutTmsBits h 0x03 2 ].

Definition dr_plan (h : Z) (tdi : list Z) (capture : bool) (bit_count : Z)
  : list Call :=
  [ CDjtgPutTmsBits h 0x01 3; CDjtgPutTdiBits h tdi capture bit_count;
    CDjtgPutTmsBits h 0x03 2 ].

Definition led_write_plan (h led_pattern : Z) : list Call :=
  ir_plan h USER1_INSTRUCTION
  ++ dr_plan h (led_write_cmd_data led_pattern) false DR_LENGTH.

Definition led_read_plan (h : Z) : list Call :=
  ir_plan h USER1_INSTRUCTION ++ dr_plan h led_read_cmd_data true DR_LENGTH.

(** Some logged call reported failure. *)
Definition some_failed (l : list Event) : bool :=
  existsb (fun e => negb (snd e)) l.

(** The last logged call reported failure and every earlier one success. *)
Definition stopped_at_failure (l : list Event) : bool :=
  match rev l with
  | (_, false) :: before => forallb snd before
  | _ => false
  end.

(** A run that follows [plan] and stops at the first failing call: the log
    is an initial segment of the plan; status 0 goes with the whole plan and
    no failure, status -1 with a log that ends at its only failure. *)
Definition fail_fast (rc : Z) (l : list Event) (plan : list Call) : Prop :=
  map fst l = firstn (List.length l) plan /\
  ((rc = 0 /\ map fst l = plan /\ some_failed l = false) \/
   (rc = -1 /\ stopped_at_failure l = true)).

(** Bit counts of the TDI shifts in a sequence of calls. *)
Definition tdi_widths (cs : list Call) : list Z :=
  flat_map (fun c => match c with
                     | CDjtgPutTdiBits _ _ _ cbit => [cbit]
                     | _ => []
                     end) cs.

(** The TMS and TDI shifts in a sequence of calls. *)
Definition shifts (cs : list Call) : list Call :=
  filter (fun c => match c with
                   | CDjtgPutTmsBits _ _ _ | CDjtgPutTdiBits _ _ _ _ => true
                   | _ => false
                   end) cs.

(** The teardown calls ([DjtgDisable], [DmgrClose]) in a sequence of calls. *)
Definition teardown (cs : list Call) : list Call :=
  filter (fun c => match c with
                   | CDjtgDisable _ | CDmgrClose _ => true
                   | _ => false
                   end) cs.

(** The exit code as the interface describes it: 1 when initialisation,
    enumeration or connection fails, 0 otherwise. *)
Definition exit_code (init_ok : bool) (devices : Z) (connect_rc : Z) : Z :=
  if negb init_ok then 1
  else if devices =? 0 then 1
  else if connect_rc =? 0 then 0
  else 1.

(** ** The pattern sweep with its report

    [test_led_patterns] prints one line per pattern and returns nothing.
    [test_loop_report] is [test_loop] with that line returned. *)

Inductive Verdict : Type :=
| Verified
| Failed (expected got : Z)
| ReadFailed
| WriteFailed.

Section Report.

Context {T : Type} {adept : Adept T}.

(** The body of the [for] loop for one pattern. *)
Definition test_pattern (handle : option jtag_axi_handle_t) (p : Z) : M T Verdict :=
  rc <- led_write handle p ;;
  if rc =? 0 then
    r <- led_read handle (Some 0) ;;
    if fst r =? 0 then
      let read_data := match snd r with Some d => d | None => 0 end in
      if read_data =? p then ret Verified else ret (Failed p read_data)
    else ret ReadFailed
  else ret WriteFailed.

Fixpoint test_loop_report (handle : option jtag_axi_handle_t) (patterns : list Z)
  : M T (list Verdict) :=
  match patterns with
  | [] => ret []
  | p :: rest =>
    v <- test_pattern handle p ;;
    vs <- test_loop_report handle rest ;;
    ret (v :: vs)
  end.

(** The command dispatch of [main]: the block that parses the command
    line, between the connection and the cleanup. *)
Definition run_command (strtol : string -> Z) (argv : list string)
    (jtag_handle : option jtag_axi_handle_t) : M T unit :=
  let argc := Z.of_nat (List.length argv) in
  if 1 <? argc then
    let cmd := nth 1 argv EmptyString in
    if String.eqb cmd "test"%string then test_led_patterns jtag_handle
    else if String.eqb cmd "write"%string && (2 <? argc) then
      let pattern := (strtol (nth 2 argv EmptyString)) mod 256 in
      led_write jtag_handle pattern ;;; ret tt
    else if String.eqb cmd "read"%string then
      led_read jtag_handle (Some 0) ;;; ret tt
    else ret tt
  else test_led_patterns jtag_handle.

End Report.


(** ** The command frame *)

Lemma land_nibble_range (p : Z) : 0 <= Z.land p 0xF < 16.
Proof.
  change 0xF with (Z.ones 4). rewrite Z.land_ones by lia.
  change (2 ^ 4) with 16. apply Z.mod_pos_bound. lia.
Qed.

Lemma land_nibble_id (p : Z) : 0 <= p <= 15 -> Z.land p 0xF = p.
Proof.
  intros Hp. change 0xF with (Z.ones 4). rewrite Z.land_ones by lia.
  change (2 ^ 4) with 16. apply Z.mod_small. lia.
Qed.

Lemma land_nibble_idem (p : Z) : Z.land (Z.land p 0xF) 0xF = Z.land p 0xF.
Proof. apply land_nibble_id. pose proof (land_nibble_range p). lia. Qed.

Lemma le32_nibble (v : Z) : 0 <= v < 16 -> le32 v = [v; 0; 0; 0].
Proof.
  intros Hv. unfold le32.
  rewrite (Z.mod_small v 256) by lia.
  rewrite !(Z.div_small v) by lia.
  reflexivity.
Qed.

(** C1: for a 4-bit pattern [p], the write frame carries [p] in byte 8, and
    the extraction [led_read] applies to a response, byte 8 masked to the
    low nibble, gives [p] back when applied to that frame. *)
Theorem led_frame_roundtrip (p : Z) :
  0 <= p <= 15 ->
  nth 8 (led_write_cmd_data p) 0 = p /\
  led_extract (led_write_cmd_data p) = p.
Proof.
  intros Hp. unfold led_extract. cbn [led_write_cmd_data nth].
  rewrite (land_nibble_id p Hp). split; [reflexivity | exact (land_nibble_id p Hp)].
Qed.

Lemma led_frame_roundtrip_witness :
  0 <= 0xA <= 15 /\
  nth 8 (led_write_cmd_data 0xA) 0 = 0xA /\
  led_extract (led_write_cmd_data 0xA) = 0xA.
Proof. split; [lia | apply (led_frame_roundtrip 0xA); lia]. Defined.

(** C2: whatever the pattern, the write frame and the read frame are 12
    bytes, that is [DR_LENGTH] = 96 bits: the opcode, the address and the
    data as three 32-bit little-endian fields at offsets 0, 4 and 8.  The
    data field is the low nibble of the pattern (zero in a read frame), so
    its bits 4 to 31 are zero: the high nibble of byte 8 and bytes 9 to 11. *)
Theorem command_frame_layout (p : Z) :
  (led_write_cmd_data p
     = le32 CMD_WRITE ++ le32 LED_BASE_ADDR ++ le32 (Z.land p 0xF)
   /\ led_read_cmd_data = le32 CMD_READ ++ le32 LED_BASE_ADDR ++ le32 0)
  /\ (List.length (led_write_cmd_data p) = 12%nat
      /\ List.length led_read_cmd_data = 12%nat
      /\ 8 * 12 = DR_LENGTH)
  /\ (field32 (led_write_cmd_data p) 0 = CMD_WRITE
      /\ field32 (led_write_cmd_data p) 4 = LED_BASE_ADDR
      /\ field32 (led_write_cmd_data p) 8 = Z.land p 0xF
      /\ field32 led_read_cmd_data 0 = CMD_READ
      /\ field32 led_read_cmd_data 4 = LED_BASE_ADDR
      /\ field32 led_read_cmd_data 8 = 0)
  /\ (0 <= field32 (led_write_cmd_data p) 8 < 16
      /\ (forall i, 4 <= i -> Z.testbit (field32 (led_write_cmd_data p) 8) i = false)
      /\ Z.shiftr (nth 8 (led_write_cmd_data p) 0) 4 = 0
      /\ skipn 9 (led_write_cmd_data p) = [0; 0; 0]
      /\ skipn 8 led_read_cmd_data = [0; 0; 0; 0]).
Proof.
  pose proof (land_nibble_range p) as Hn.
  assert (Hf : field32 (led_write_cmd_data p) 8 = Z.land p 0xF).
  { unfold field32. cbn [led_write_cmd_data nth Nat.add]. lia. }
  assert (Hb : forall i, 4 <= i -> Z.testbit (Z.land p 0xF) i = false).
  { intros i Hi. change 0xF with (Z.ones 4).
    rewrite Z.land_spec, Z.ones_spec_high by lia. apply andb_false_r. }
  assert (Hs : Z.shiftr (Z.land p 0xF) 4 = 0).
  { rewrite Z.shiftr_div_pow2 by lia. apply Z.div_small.
    change (2 ^ 4) with 16. lia. }
  split; [split | split; [| split]].
  - cbn [led_write_cmd_data]. rewrite (le32_nibble _ Hn). reflexivity.
  - reflexivity.
  - repeat split; reflexivity.
  - repeat split; first [exact Hf | reflexivity].
  - rewrite Hf. repeat split; first [lia | exact Hb | exact Hs | reflexivity].
Qed.

(** ** The shift cycles *)

Ltac unfold_driver :=
  unfold led_write, led_read, jtag_shift_ir, jtag_shift_dr, disconnect_device,
    bind, ret, DjtgPutTmsBits, DjtgPutTdiBits, DjtgDisable, DmgrClose,
    result, adapter, calls, log.

(** Case analysis on the outcome of every shift the goal still mentions, in
    program order; the outcome of a call already analysed is reused. *)
Ltac shift_cases :=
  repeat match goal with
  | H : adept_PutTmsBits ?h ?a ?b ?t = _
    |- context [adept_PutTmsBits ?h ?a ?b ?t] => rewrite H; cbn
  | H : adept_PutTdiBits ?h ?a ?b ?c ?t = _
    |- context [adept_PutTdiBits ?h ?a ?b ?c ?t] => rewrite H; cbn
  | |- context [adept_PutTmsBits ?h ?a ?b ?t] =>
      is_var t; destruct (adept_PutTmsBits h a b t) as [[|] ?] eqn:?; cbn
  | |- context [adept_PutTdiBits ?h ?a ?b ?c ?t] =>
      is_var t; destruct (adept_PutTdiBits h a b c t) as [[[|] ?] ?] eqn:?; cbn
  end.

Ltac by_shift_cases := cbv zeta; intros; unfold_driver; cbn; shift_cases.

Section Properties.

Context {T : Type} {adept : Adept T}.

Implicit Types (handle : option jtag_axi_handle_t) (t : T).

Lemma jtag_shift_ir_not_ready handle instruction t :
  ready handle = false -> jtag_shift_ir handle instruction t = (-1, t, []).
Proof.
  destruct handle as [[h [|] name] |]; cbn; intros E; try discriminate; reflexivity.
Qed.

Lemma jtag_shift_dr_not_ready handle tdi tdo n t :
  ready handle = false -> jtag_shift_dr handle tdi tdo n t = ((-1, tdo), t, []).
Proof.
  destruct handle as [[h [|] name] |]; cbn; intros E; try discriminate; reflexivity.
Qed.

Lemma led_write_not_ready handle p t :
  ready handle = false -> led_write handle p t = (-1, t, []).
Proof.
  destruct handle as [[h [|] name] |]; cbn; intros E; try discriminate; reflexivity.
Qed.

Lemma led_read_not_ready handle cell t :
  ready handle = false -> led_read handle cell t = ((-1, cell), t, []).
Proof.
  destruct handle as [[h [|] name] |]; cbn; intros E; try discriminate; reflexivity.
Qed.

Lemma led_read_null handle t : led_read handle None t = ((-1, None), t, []).
Proof. destruct handle as [[h [|] name] |]; reflexivity. Qed.

(** A complete cycle or a stop at the first failing Adept call. *)
Lemma jtag_shift_ir_fail_fast h name instruction t :
  let r := jtag_shift_ir
             (Some {| hif := h; is_connected := true; device_name := name |})
             instruction t in
  fail_fast (result r) (log r) (ir_plan h instruction).
Proof.
  by_shift_cases; (split; [reflexivity |]);
    first [ left; repeat split; reflexivity | right; split; reflexivity ].
Qed.

Lemma jtag_shift_dr_fail_fast h name tdi tdo n t :
  let r := jtag_shift_dr
             (Some {| hif := h; is_connected := true; device_name := name |})
             tdi tdo n t in
  fail_fast (fst (result r)) (log r)
    (dr_plan h tdi (match tdo with Some _ => true | None => false end) n).
Proof.
  by_shift_cases; (split; [reflexivity |]);
    first [ left; repeat split; reflexivity | right; split; reflexivity ].
Qed.

Lemma led_write_fail_fast h name p t :
  let r := led_write
             (Some {| hif := h; is_connected := true; device_name := name |}) p t in
  fail_fast (result r) (log r) (led_write_plan h p).
Proof.
  by_shift_cases; (split; [reflexivity |]);
    first [ left; repeat split; reflexivity | right; split; reflexivity ].
Qed.

Lemma led_read_fail_fast h name v t :
  let r := led_read
             (Some {| hif := h; is_connected := true; device_name := name |})
             (Some v) t in
  fail_fast (fst (result r)) (log r) (led_read_plan h).
Proof.
  by_shift_cases; (split; [reflexivity |]);
    first [ left; repeat split; reflexivity | right; split; reflexivity ].
Qed.

(** A successful [led_write] has issued the whole plan: the DR shift carries
    the command frame, [DR_LENGTH] bits of it. *)
Lemma led_write_success_calls h name p t :
  let r := led_write
             (Some {| hif := h; is_connected := true; device_name := name |}) p t in
  result r = 0 ->
  calls r = led_write_plan h p
  /\ In (CDjtgPutTdiBits h (led_write_cmd_data p) false DR_LENGTH) (calls r).
Proof.
  cbv zeta. intros Hrc.
  pose proof (led_write_fail_fast h name p t) as [_ [[_ [Hp _]] | [Hm _]]].
  - split; [exact Hp |]. unfold calls. rewrite Hp. cbn. tauto.
  - rewrite Hrc in Hm. discriminate.
Qed.

(** *** Guards *)

(** C10: [jtag_shift_ir], [jtag_shift_dr], [led_write] and [led_read] test
    the handle first: on a null or unconnected handle each returns -1 with
    no Adept call and the adapter untouched, and [led_read] does the same
    on a null output pointer, whatever the handle; output buffers keep
    their contents. *)
Theorem guards_fail_before_transport handle any instruction tdi tdo n p cell t :
  ready handle = false ->
  jtag_shift_ir handle instruction t = (-1, t, [])
  /\ jtag_shift_dr handle tdi tdo n t = ((-1, tdo), t, [])
  /\ led_write handle p t = (-1, t, [])
  /\ led_read handle cell t = ((-1, cell), t, [])
  /\ led_read any None t = ((-1, None), t, []).
Proof.
  intros E. repeat split.
  - now apply jtag_shift_ir_not_ready.
  - now apply jtag_shift_dr_not_ready.
  - now apply led_write_not_ready.
  - now apply led_read_not_ready.
  - apply led_read_null.
Qed.

(** *** Closing *)

(** C7: [disconnect_device] returns 0 in every case.  On a null or
    unconnected handle it makes no Adept call and changes nothing.  On a
    connected handle it calls [DjtgDisable] and [DmgrClose] once each and
    clears the flag, so a second [disconnect_device] on the handle it leaves
    makes no call at all. *)
Theorem disconnect_device_idempotent handle t :
  let r1 := disconnect_device handle t in
  let r2 := disconnect_device (snd (result r1)) (adapter r1) in
  (fst (result r1) = 0 /\ fst (result r2) = 0)
  /\ match handle with
     | Some h =>
       if is_connected h
       then calls r1 = [CDjtgDisable (hif h); CDmgrClose (hif h)]
       else r1 = ((0, handle), t, [])
     | None => r1 = ((0, None), t, [])
     end
  /\ ready (snd (result r1)) = false
  /\ r2 = ((0, snd (result r1)), adapter r1, [])
  /\ teardown (calls r1 ++ calls r2) = teardown (calls r1).
Proof.
  cbv zeta. destruct handle as [[h [|] name] |]; unfold_driver; cbn.
  - destruct (adept_Disable h t) as [b1 t1].
    destruct (adept_Close h t1) as [b2 t2]. cbn.
    repeat split; reflexivity.
  - repeat split; reflexivity.
  - repeat split; reflexivity.
Qed.

(** *** Instruction width *)

(** C6: whatever the instruction value, [jtag_shift_ir] never makes a TDI
    shift of a width other than [IR_LENGTH] = 6: a call that returns 0 has
    made exactly one TDI shift, of 6 bits, carrying the instruction byte,
    and a call that fails has made that one shift or none. *)
Theorem jtag_shift_ir_presents_IR_LENGTH handle instruction t :
  let r := jtag_shift_ir handle instruction t in
  IR_LENGTH = 6
  /\ (if result r =? 0
      then tdi_widths (calls r) = [IR_LENGTH]
      else tdi_widths (calls r) = [] \/ tdi_widths (calls r) = [IR_LENGTH])
  /\ (forall h snd rcv cbit,
        In (CDjtgPutTdiBits h snd rcv cbit) (calls r) ->
        cbit = IR_LENGTH /\ snd = [instruction]).
Proof.
  cbv zeta. destruct handle as [[h [|] name] |]; by_shift_cases;
    (split; [reflexivity |]); (split; [auto |]);
    intros h' snd' rcv' cbit' HIn; cbn in HIn;
    repeat (destruct HIn as [HIn | HIn]; try discriminate HIn);
    try contradiction; inversion HIn; split; reflexivity.
Qed.

(** *** Masking *)

Lemma led_write_cmd_data_mask (p : Z) :
  led_write_cmd_data (Z.land p 0xF) = led_write_cmd_data p.
Proof. unfold led_write_cmd_data. rewrite land_nibble_idem. reflexivity. Qed.

(** C9: [led_write] depends on its pattern only through the low nibble:
    [led_write p] and [led_write (p & 0xF)] build the same frame and run
    alike on every adapter; [0x10] is written as [0x00]. *)
Theorem led_write_low_nibble handle p t :
  led_write_cmd_data p = led_write_cmd_data (Z.land p 0xF)
  /\ led_write handle p t = led_write handle (Z.land p 0xF) t
  /\ led_write_cmd_data 0x10 = led_write_cmd_data 0x00
  /\ led_write handle 0x10 t = led_write handle 0x00 t.
Proof.
  repeat split; try reflexivity.
  - symmetry. apply led_write_cmd_data_mask.
  - unfold led_write. rewrite led_write_cmd_data_mask. reflexivity.
Qed.

(** *** Failure propagation *)

(** C5: [led_write] and [led_read] return what their shifts return.  If
    [jtag_shift_ir] fails, its status is the status of the operation and
    nothing is issued after it; otherwise the same holds of
    [jtag_shift_dr]; [led_write] returns 0 exactly when both return 0.  On
    a connected handle the Adept calls follow the fixed plan of the two
    cycles, each once, and stop at the first call that reports failure: the
    status is -1 exactly when a call failed, and that call is the last. *)
Theorem shift_failures_propagate handle p v t :
  let ir := jtag_shift_ir handle USER1_INSTRUCTION t in
  let drw := jtag_shift_dr handle (led_write_cmd_data p) None DR_LENGTH (adapter ir) in
  let drr := jtag_shift_dr handle led_read_cmd_data (Some zero_response) DR_LENGTH
               (adapter ir) in
  let w := led_write handle p t in
  let r := led_read handle (Some v) t in
  ((result w = -1 <-> result ir <> 0 \/ fst (result drw) <> 0)
   /\ (result w = 0 <-> result ir = 0 /\ fst (result drw) = 0)
   /\ (fst (result r) = -1 <-> result ir <> 0 \/ fst (result drr) <> 0))
  /\ (w = if result ir =? 0
          then (fst (result drw), adapter drw, log ir ++ log drw)
          else (result ir, adapter ir, log ir))
  /\ (if result ir =? 0
      then fst (result r) = fst (result drr) /\ adapter r = adapter drr
           /\ log r = log ir ++ log drr
      else r = ((result ir, Some v), adapter ir, log ir))
  /\ (forall h, handle = Some h -> is_connected h = true ->
      fail_fast (result w) (log w) (led_write_plan (hif h) p)
      /\ fail_fast (fst (result r)) (log r) (led_read_plan (hif h))
      /\ (result w = -1 <-> some_failed (log w) = true)
      /\ (fst (result r) = -1 <-> some_failed (log r) = true)).
Proof.
  cbv zeta. split; [| split; [| split]].
  - destruct handle as [[h [|] name] |]; by_shift_cases;
      intuition congruence.
  - destruct handle as [[h [|] name] |]; by_shift_cases; reflexivity.
  - destruct handle as [[h [|] name] |]; by_shift_cases;
      repeat split; reflexivity.
  - intros [h c name] -> Hc. cbn in Hc. subst c.
    split; [apply led_write_fail_fast |].
    split; [apply led_read_fail_fast |].
    split; by_shift_cases; split; intros; try reflexivity; discriminate.
Qed.

(** *** Out-of-range patterns *)

(** C4 (amended): [led_write] has no width check.  On a connected handle a
    pattern above 15 is not rejected: the TAP reset shift is issued first,
    the status is -1 only when an Adept call reported failure, and when
    every call succeeds the status is 0 after the whole plan has run with a
    frame whose data byte is [p & 0xF], exactly as for the pattern
    [p & 0xF]. *)
Theorem led_write_masks_out_of_range h p t :
  is_connected h = true ->
  15 < p <= 255 ->
  let w := led_write (Some h) p t in
  hd_error (calls w) = Some (CDjtgPutTmsBits (hif h) 0x1F 5)
  /\ (if some_failed (log w)
      then result w = -1
      else result w = 0 /\ calls w = led_write_plan (hif h) p)
  /\ nth 8 (led_write_cmd_data p) 0 = Z.land p 0xF
  /\ w = led_write (Some h) (Z.land p 0xF) t.
Proof.
  intros Hc Hp. destruct h as [h c name]. cbn in Hc. subst c. cbv zeta.
  split; [| split; [| split]].
  - by_shift_cases; reflexivity.
  - by_shift_cases; first [reflexivity | split; reflexivity].
  - reflexivity.
  - unfold led_write. rewrite led_write_cmd_data_mask. reflexivity.
Qed.

(** *** Exit code *)

Lemma result_bind {A B} (m : M T A) (k : A -> M T B) t :
  result (bind m k t) = result (k (result (m t)) (adapter (m t))).
Proof.
  unfold bind, result, adapter.
  destruct (m t) as [[a t1] c1]. cbn.
  destruct (k a t1) as [[b t2] c2]. reflexivity.
Qed.

(** [enumerate_devices] returns 0 when [DmgrEnumDevices] fails, and the
    count it reported otherwise. *)
Lemma enumerate_devices_result t :
  result (enumerate_devices t)
  = if fst (result (DmgrEnumDevices t)) then snd (result (DmgrEnumDevices t)) else 0.
Proof.
  unfold enumerate_devices. rewrite result_bind.
  destruct (fst (result (DmgrEnumDevices t))); cbn [negb]; [| reflexivity].
  rewrite result_bind. reflexivity.
Qed.

(** [connect_device] on the first device returns 0 when [DmgrGetDvc],
    [DmgrOpen] and [DjtgEnable] all succeed, and -1 otherwise. *)
Lemma connect_device_result h t :
  let dvc := DmgrGetDvc 0 t in
  let opn := DmgrOpen (snd (fst (result dvc))) (adapter dvc) in
  let enb := DjtgEnable (snd (result opn)) (adapter opn) in
  fst (result (connect_device (Some h) None t))
  = if fst (fst (result dvc)) && fst (result opn) && result enb then 0 else -1.
Proof.
  cbv zeta. unfold connect_device. rewrite result_bind.
  destruct (fst (fst (result (DmgrGetDvc 0 t)))); cbn [negb andb]; [| reflexivity].
  unfold open_device. rewrite result_bind. cbn [device_name set_name].
  destruct (fst (result (DmgrOpen _ _))); cbn [negb andb]; [| reflexivity].
  rewrite result_bind. cbn [hif set_hif].
  destruct (result (DjtgEnable _ _)); cbn [negb].
  - rewrite !result_bind. reflexivity.
  - rewrite result_bind. reflexivity.
Qed.

(** C8: the exit code of [main] is 1 when [DmgrOpen] fails, when
    [enumerate_devices] returns 0, or when [connect_device] fails, and 0
    in every other run, whatever the arguments select and however the
    selected action ends. *)
Theorem main_exit_code strtol argv t :
  let init := DmgrOpen EmptyString t in
  let enum := enumerate_devices (adapter init) in
  let conn := connect_device (Some zero_handle) None (adapter enum) in
  let rc := result (main strtol argv t) in
  rc = exit_code (fst (result init)) (result enum) (fst (result conn))
  /\ (rc = 1 <->
      fst (result init) = false \/ result enum = 0 \/ fst (result conn) <> 0)
  /\ (rc = 0 <->
      fst (result init) = true /\ result enum <> 0 /\ fst (result conn) = 0).
Proof.
  cbv zeta.
  assert (E : result (main strtol argv t)
              = exit_code (fst (result (DmgrOpen EmptyString t)))
                  (result (enumerate_devices (adapter (DmgrOpen EmptyString t))))
                  (fst (result (connect_device (Some zero_handle) None
                     (adapter (enumerate_devices
                                 (adapter (DmgrOpen EmptyString t)))))))).
  { unfold main, exit_code. rewrite result_bind.
    destruct (fst (result (DmgrOpen EmptyString t))); cbn [negb]; [| reflexivity].
    rewrite result_bind.
    destruct (result (enumerate_devices (adapter (DmgrOpen EmptyString t))) =? 0).
    { rewrite result_bind. reflexivity. }
    rewrite result_bind.
    destruct (fst (result (connect_device (Some zero_handle) None
                (adapter (enumerate_devices (adapter (DmgrOpen EmptyString t))))))
              =? 0); cbn [negb].
    - rewrite !result_bind. reflexivity.
    - rewrite result_bind. reflexivity. }
  split; [exact E |]. rewrite E. unfold exit_code.
  destruct (fst (result (DmgrOpen EmptyString t))); cbn [negb].
  - destruct (Z.eqb_spec
                (result (enumerate_devices (adapter (DmgrOpen EmptyString t)))) 0)
      as [En | En].
    + split; split; intros; try reflexivity; try discriminate; intuition congruence.
    + destruct (Z.eqb_spec
                  (fst (result (connect_device (Some zero_handle) None
                     (adapter (enumerate_devices
                                 (adapter (DmgrOpen EmptyString t))))))) 0)
        as [Ec | Ec];
        split; split; intros; try reflexivity; try discriminate;
        intuition congruence.
  - split; split; intros; try reflexivity; try discriminate; intuition congruence.
Qed.

End Properties.

(** ** Runs on the scripted adapter *)

Import Scripted.

(** C4, as first stated, fails: with every Adept call succeeding,
    [led_write] on the pattern [0x10] returns 0 after all seven shifts of
    the plan; it is neither rejected nor stopped before the first shift. *)
Lemma led_write_0x10_not_rejected :
  result (led_write open_handle 0x10 []) = 0
  /\ calls (led_write open_handle 0x10 []) = led_write_plan 7 0x10
  /\ shifts (calls (led_write open_handle 0x10 [])) <> []
  /\ ~ (result (led_write open_handle 0x10 []) <> 0
        /\ calls (led_write open_handle 0x10 []) = []).
Proof.
  repeat split; try reflexivity; try discriminate.
  intros [Hrc _]. apply Hrc. reflexivity.
Qed.

(** On the scripted adapter, [connect_device] on a zeroed handle yields
    [open_handle]. *)
Lemma connect_device_scripted :
  result (connect_device (Some zero_handle) None []) = (0, open_handle).
Proof. reflexivity. Qed.

Lemma led_write_masks_out_of_range_witness :
  is_connected (mk_handle 7 true "JtagHs2") = true
  /\ 15 < 0x10 <= 255
  /\ hd_error (calls (led_write open_handle 0x10 [])) = Some (CDjtgPutTmsBits 7 0x1F 5)
  /\ result (led_write open_handle 0x10 []) = 0
  /\ led_write open_handle 0x10 [] = led_write open_handle 0x00 [].
Proof.
  split; [reflexivity |]. split; [lia |].
  destruct (led_write_masks_out_of_range (mk_handle 7 true "JtagHs2") 0x10
              ([] : script) eq_refl) as (H1 & H2 & _ & H4); [lia |].
  split; [exact H1 |]. split; [exact (proj1 H2) | exact H4].
Defined.

Lemma guards_fail_before_transport_witness :
  ready closed_handle = false
  /\ jtag_shift_ir closed_handle 0x02 (fail_at 0) = (-1, fail_at 0, [])
  /\ led_write None 0x5 (fail_at 0) = (-1, fail_at 0, [])
  /\ led_read open_handle None (fail_at 0) = ((-1, None), fail_at 0, []).
Proof.
  split; [reflexivity |].
  destruct (guards_fail_before_transport closed_handle open_handle 0x02 [] None 0
              0x5 None (fail_at 0) eq_refl) as (H1 & _ & _ & _ & H5).
  destruct (guards_fail_before_transport None open_handle 0x02 [] None 0
              0x5 None (fail_at 0) eq_refl) as (_ & _ & H3 & _).
  split; [exact H1 |]. split; [exact H3 | exact H5].
Defined.

Lemma shift_failures_propagate_witness :
  is_connected (mk_handle 7 true "JtagHs2") = true
  /\ result (led_write open_handle 0x5 (fail_at 5)) = -1
  /\ fail_fast (result (led_write open_handle 0x5 (fail_at 5)))
       (log (led_write open_handle 0x5 (fail_at 5))) (led_write_plan 7 0x5)
  /\ fail_fast (fst (result (led_read open_handle (Some 0) (fail_at 2))))
       (log (led_read open_handle (Some 0) (fail_at 2))) (led_read_plan 7).
Proof.
  split; [reflexivity |].
  destruct (shift_failures_propagate open_handle 0x5 0 (fail_at 5))
    as (_ & _ & _ & Hw).
  destruct (shift_failures_propagate open_handle 0x5 0 (fail_at 2))
    as (_ & _ & _ & Hr).
  destruct (Hw (mk_handle 7 true "JtagHs2") eq_refl eq_refl) as (H1 & _ & H3 & _).
  destruct (Hr (mk_handle 7 true "JtagHs2") eq_refl eq_refl) as (_ & H2 & _).
  split; [apply H3; reflexivity |]. split; [exact H1 | exact H2].
Defined.

Lemma jtag_shift_ir_presents_IR_LENGTH_witness :
  In (CDjtgPutTdiBits 7 [0xFF] false 6) (calls (jtag_shift_ir open_handle 0xFF []))
  /\ 6 = IR_LENGTH
  /\ tdi_widths (calls (jtag_shift_ir open_handle 0xFF [])) = [6].
Proof.
  destruct (jtag_shift_ir_presents_IR_LENGTH open_handle 0xFF ([] : script))
    as (_ & H2 & H3).
  assert (HIn : In (CDjtgPutTdiBits 7 [0xFF] false 6)
                  (calls (jtag_shift_ir open_handle 0xFF ([] : script)))).
  { cbn. right. right. left. reflexivity. }
  split; [exact HIn |]. split; [exact (proj1 (H3 _ _ _ _ HIn)) | exact H2].
Defined.

(** ** The TAP under the driver's TMS sequences *)

Lemma TapState_eqb_eq (a b : TapState) : TapState_eqb a b = true <-> a = b.
Proof. destruct a, b; cbn; split; intros E; first [reflexivity | discriminate]. Qed.

(** Five cycles with TMS high reset the TAP from any state. *)
Lemma reset_sequence (s : TapState) :
  tap_run s (bits_lsb_first 0x1F 5) = TestLogicReset
  /\ tap_run s (bits_msb_first 0x1F 5) = TestLogicReset.
Proof. destruct s; split; reflexivity. Qed.

(** Shift-IR is at least five cycles away from Test-Logic-Reset: no two TMS
    bits bridge it, in either bit order. *)
Lemma two_cycles_miss_shift_ir (b1 b2 : bool) :
  tap_run TestLogicReset [b1; b2] <> ShiftIR.
Proof. destruct b1, b2; discriminate. Qed.

(** The exit sequence [0x03], two bits, stops in Update: one more cycle with
    TMS low is needed for Run-Test/Idle. *)
Lemma exit_sequence_stops_in_update :
  tap_run ShiftIR (bits_lsb_first 0x03 2) = UpdateIR
  /\ tap_run ShiftDR (bits_lsb_first 0x03 2) = UpdateDR
  /\ tap_run ShiftIR (bits_lsb_first 0x03 2 ++ [false]) = RunTestIdle
  /\ tap_run ShiftDR (bits_lsb_first 0x03 2 ++ [false]) = RunTestIdle.
Proof. repeat split; reflexivity. Qed.

(** What would take the TAP from Test-Logic-Reset to Shift-IR. *)
Lemma shift_ir_entry_from_reset :
  tap_run TestLogicReset [false; true; true; false; false] = ShiftIR.
Proof. reflexivity. Qed.

(** On any adapter, a successful [jtag_shift_ir] has issued the whole IR
    plan; from any TAP state, that plan leaves the TAP in Run-Test/Idle
    when the instruction is shifted and in Select-IR-Scan at the end. *)
Lemma jtag_shift_ir_tap {T : Type} {adept : Adept T} h name instruction (t : T) s :
  let r := jtag_shift_ir
             (Some {| hif := h; is_connected := true; device_name := name |})
             instruction t in
  result r = 0 ->
  calls r = ir_plan h instruction
  /\ tap_trace bits_lsb_first s (calls r)
     = [TestLogicReset; RunTestIdle; RunTestIdle; SelectIRScan].
Proof.
  cbv zeta. intros Hrc.
  assert (Hc : calls (jtag_shift_ir
                        (Some {| hif := h; is_connected := true; device_name := name |})
                        instruction t) = ir_plan h instruction).
  { pose proof (jtag_shift_ir_fail_fast h name instruction t) as [_ [[_ [Hp _]] | [Hm _]]].
    - exact Hp.
    - rewrite Hrc in Hm. discriminate. }
  split; [exact Hc |]. rewrite Hc. destruct s; reflexivity.
Qed.

(** C3, evaluated: a register write in which every Adept call succeeds,
    with the TAP in Run-Test/Idle at the start.  The TMS bits issued before
    the instruction is shifted leave the TAP in Run-Test/Idle, not in
    Shift-IR, and the IR cycle ends in Select-IR-Scan, not in Run-Test/Idle.
    A DR cycle started from Run-Test/Idle does enter Shift-DR, and ends in
    Update-DR.  Over the whole write the TAP never passes through Shift-IR,
    in either bit order of the TMS buffer. *)
Theorem tap_cycle_misses_shift_ir :
  calls (led_write open_handle 0x5 []) = led_write_plan 7 0x5
  /\ tap_trace bits_lsb_first RunTestIdle
       (calls (jtag_shift_ir open_handle USER1_INSTRUCTION []))
     = [TestLogicReset; RunTestIdle; RunTestIdle; SelectIRScan]
  /\ tap_trace bits_lsb_first RunTestIdle
       (calls (jtag_shift_dr open_handle (led_write_cmd_data 0x5) None DR_LENGTH []))
     = [ShiftDR; ShiftDR; UpdateDR]
  /\ tap_trace bits_lsb_first RunTestIdle (calls (led_write open_handle 0x5 []))
     = [TestLogicReset; RunTestIdle; RunTestIdle; SelectIRScan;
        RunTestIdle; RunTestIdle; SelectIRScan]
  /\ existsb (TapState_eqb ShiftIR)
       (tap_visits bits_lsb_first RunTestIdle (calls (led_write open_handle 0x5 [])))
     = false
  /\ existsb (TapState_eqb ShiftIR)
       (tap_visits bits_msb_first RunTestIdle (calls (led_write open_handle 0x5 [])))
     = false.
Proof. repeat split; vm_compute; reflexivity. Qed.

(** ** The rest of the program *)

Lemma log_bind {T A B} (m : M T A) (k : A -> M T B) (t : T) :
  log (bind m k t) = log (m t) ++ log (k (result (m t)) (adapter (m t))).
Proof.
  unfold bind, result, adapter, log.
  destruct (m t) as [[a t1] c1]. cbn.
  destruct (k a t1) as [[b t2] c2]. reflexivity.
Qed.


Lemma calls_bind {T A B} (m : M T A) (k : A -> M T B) (t : T) :
  calls (bind m k t) = calls (m t) ++ calls (k (result (m t)) (adapter (m t))).
Proof. unfold calls. rewrite log_bind. apply map_app. Qed.

Ltac unfold_adept :=
  unfold DmgrOpen, DmgrClose, DmgrEnumDevices, DmgrGetDvc, DjtgEnable, DjtgDisable,
    DjtgGetProperties, DjtgSetSpeed, DjtgSetBatchMode, DjtgPutTmsBits, DjtgPutTdiBits,
    bind, ret, result, adapter, calls, log.

(** Case analysis on the outcome of the next Adept call, in program order. *)
Ltac adept_case :=
  match goal with
  | |- context [adept_Open ?n ?t] =>
      is_var t; destruct (adept_Open n t) as [[[|] ?] ?] eqn:?
  | |- context [adept_Close ?h ?t] =>
      is_var t; destruct (adept_Close h t) as [[|] ?] eqn:?
  | |- context [adept_EnumDevices ?t] =>
      is_var t; destruct (adept_EnumDevices t) as [[[|] ?] ?] eqn:?
  | |- context [adept_GetDvc ?i ?t] =>
      is_var t; destruct (adept_GetDvc i t) as [[[[|] ?] ?] ?] eqn:?
  | |- context [adept_Enable ?h ?t] =>
      is_var t; destruct (adept_Enable h t) as [[|] ?] eqn:?
  | |- context [adept_Disable ?h ?t] =>
      is_var t; destruct (adept_Disable h t) as [[|] ?] eqn:?
  | |- context [adept_GetProperties ?h ?t] =>
      is_var t; destruct (adept_GetProperties h t) as [[[|] ?] ?] eqn:?
  | |- context [adept_SetSpeed ?h ?z ?t] =>
      is_var t; destruct (adept_SetSpeed h z t) as [[|] ?] eqn:?
  | |- context [adept_SetBatchMode ?h ?b ?t] =>
      is_var t; destruct (adept_SetBatchMode h b t) as [[|] ?] eqn:?
  end.

Ltac adept_cases := repeat (adept_case; cbn).

Section Coverage.

Context {T : Type} {adept : Adept T}.

Implicit Types (handle : option jtag_axi_handle_t) (t : T).

(** *** enumerate_devices *)

Lemma list_devices_run (indices : list Z) t :
  result (list_devices indices t) = tt
  /\ calls (list_devices indices t) = map CDmgrGetDvc indices.
Proof.
  revert t. induction indices as [| i rest IH]; intros t; [split; reflexivity |].
  cbn [list_devices]. rewrite calls_bind.
  destruct (IH (adapter (DmgrGetDvc i t))) as [_ IHc].
  split; [destruct (result _); reflexivity |].
  rewrite IHc. unfold DmgrGetDvc, calls, log.
  destruct (adept_GetDvc i t) as [[[ok name] dprp] t']. reflexivity.
Qed.

(** X1: [enumerate_devices] asks for the device count once.  When the
    request fails it returns 0 and queries no device.  Otherwise it returns
    the reported count [n] unchanged and queries the devices 0 to [n]-1 in
    order, each once, whether or not a query succeeds: [max n 0] queries,
    so none for a count that is zero or negative. *)
Theorem enumerate_devices_queries t :
  let e := DmgrEnumDevices t in
  let n := snd (result e) in
  if fst (result e)
  then result (enumerate_devices t) = n
       /\ calls (enumerate_devices t)
          = CDmgrEnumDevices :: map CDmgrGetDvc (map Z.of_nat (seq 0 (Z.to_nat n)))
       /\ Z.of_nat (List.length (calls (enumerate_devices t))) = 1 + Z.max n 0
  else enumerate_devices t = (0, adapter e, [(CDmgrEnumDevices, false)]).
Proof.
  cbv zeta.
  assert (Hc : calls (DmgrEnumDevices t) = [CDmgrEnumDevices]).
  { unfold DmgrEnumDevices, calls, log.
    destruct (adept_EnumDevices t) as [[ok n] t']. reflexivity. }
  destruct (fst (result (DmgrEnumDevices t))) eqn:Eok.
  - assert (Hcalls : calls (enumerate_devices t)
             = CDmgrEnumDevices
               :: map CDmgrGetDvc
                    (map Z.of_nat (seq 0 (Z.to_nat (snd (result (DmgrEnumDevices t))))))).
    { unfold enumerate_devices. rewrite calls_bind, Hc, Eok. cbn [negb app].
      rewrite calls_bind.
      rewrite (proj2 (list_devices_run _ _)). cbn [ret calls log map].
      rewrite app_nil_r. reflexivity. }
    split; [| split].
    + rewrite enumerate_devices_result, Eok. reflexivity.
    + exact Hcalls.
    + rewrite Hcalls. cbn [List.length]. rewrite !length_map, length_seq. lia.
  - revert Eok. unfold enumerate_devices. unfold_adept.
    destruct (adept_EnumDevices t) as [[ok n] t']. cbn.
    intros ->. reflexivity.
Qed.

(** *** connect_device *)

(** Case analysis on a capability test, once no Adept call is pending. *)
Ltac capability_case :=
  match goal with
  | |- context [Z.land ?a ?b =? 0] => destruct (Z.land a b =? 0)
  end.

Ltac connect_cases :=
  cbv zeta; unfold connect_device, open_device, disconnect_device;
  unfold_adept; cbn; repeat (first [adept_case | capability_case]; cbn).

(** X2: [connect_device] returns 0 or -1.  Started on a handle that is not
    connected, it leaves the handle connected exactly when it returns 0; a
    null handle gives -1 with no Adept call. *)
Theorem connect_device_flag h name t :
  is_connected h = false ->
  let r := connect_device (Some h) name t in
  (fst (result r) = 0 \/ fst (result r) = -1)
  /\ (fst (result r) = 0 <-> ready (snd (result r)) = true)
  /\ connect_device None name t = ((-1, None), t, []).
Proof.
  intros Hc. destruct h as [hf c nm]. cbn in Hc. subst c.
  destruct name as [n |]; connect_cases; intuition congruence.
Qed.

(** X3: [connect_device] closes what it opened when it cannot go on: it
    calls [DmgrClose], on the handle [DmgrOpen] returned, exactly when the
    device was opened and [DjtgEnable] failed; in every other run it calls
    no [DmgrClose], and it never calls [DjtgDisable]. *)
Theorem connect_device_closes_on_enable_failure h t :
  let dvc := DmgrGetDvc 0 t in
  let opn := DmgrOpen (snd (fst (result dvc))) (adapter dvc) in
  let enb := DjtgEnable (snd (result opn)) (adapter opn) in
  teardown (calls (connect_device (Some h) None t))
  = if fst (fst (result dvc)) && fst (result opn) && negb (result enb)
    then [CDmgrClose (snd (result opn))]
    else [].
Proof. destruct h as [hf c nm]. connect_cases; reflexivity. Qed.

(** X4: when [DmgrGetDvc], [DmgrOpen] and [DjtgEnable] succeed,
    [connect_device] returns 0 with the handle holding the name of device 0,
    the handle [DmgrOpen] returned and the connected flag.  It then reads
    the JTAG properties once and, when that read succeeds, sets the speed to
    30 MHz if the speed capability is reported and batch mode if the batch
    capability is reported; the outcome of these calls does not change the
    status. *)
Theorem connect_device_success h t :
  let dvc := DmgrGetDvc 0 t in
  let name := snd (fst (result dvc)) in
  let opn := DmgrOpen name (adapter dvc) in
  let hf := snd (result opn) in
  let enb := DjtgEnable hf (adapter opn) in
  let prp := DjtgGetProperties hf (adapter enb) in
  let r := connect_device (Some h) None t in
  fst (fst (result dvc)) = true ->
  fst (result opn) = true ->
  result enb = true ->
  result r = (0, Some {| hif := hf; is_connected := true; device_name := name |})
  /\ calls r
     = [CDmgrGetDvc 0; CDmgrOpen name; CDjtgEnable hf; CDjtgGetProperties hf]
       ++ (if fst (result prp) && negb (Z.land (snd (result prp)) djtgpropSpeed =? 0)
           then [CDjtgSetSpeed hf 30000000] else [])
       ++ (if fst (result prp) && negb (Z.land (snd (result prp)) djtgpropBatch =? 0)
           then [CDjtgSetBatchMode hf true] else []).
Proof.
  destruct h as [h0 c nm].
  connect_cases; intros E1 E2 E3; try discriminate; split; reflexivity.
Qed.


(** X6: [disconnect_device] after [connect_device], on a handle that was not
    connected before.  After a successful connect it disables and closes the
    handle [DmgrOpen] returned, once each; after a failed connect it makes
    no Adept call.  Either way it returns 0 and leaves the handle
    unconnected. *)
Theorem connect_then_disconnect h t :
  is_connected h = false ->
  let dvc := DmgrGetDvc 0 t in
  let opn := DmgrOpen (snd (fst (result dvc))) (adapter dvc) in
  let c := connect_device (Some h) None t in
  let d := disconnect_device (snd (result c)) (adapter c) in
  fst (result d) = 0
  /\ ready (snd (result d)) = false
  /\ calls d = if fst (result c) =? 0
               then [CDjtgDisable (snd (result opn)); CDmgrClose (snd (result opn))]
               else [].
Proof.
  intros Hc. destruct h as [hf c nm]. cbn in Hc. subst c.
  connect_cases; repeat split; reflexivity.
Qed.

(** *** What a shift leaves in the buffers *)

Lemma led_extract_range (response : list Z) : 0 <= led_extract response <= 15.
Proof.
  unfold led_extract. pose proof (land_nibble_range (nth 8 response 0)). lia.
Qed.


(** X7: [led_read] returns 0 or -1.  When it returns -1 the cell behind
    [led_data] keeps its contents, at whatever step the failure occurred.
    When it returns 0 the cell holds the low nibble of byte 8 of the
    response buffer as the DR shift left it, a value from 0 to 15. *)
Theorem led_read_value handle cell t :
  let ir := jtag_shift_ir handle USER1_INSTRUCTION t in
  let dr := jtag_shift_dr handle led_read_cmd_data (Some zero_response) DR_LENGTH
              (adapter ir) in
  let response := match snd (result dr) with Some b => b | None => zero_response end in
  let r := led_read handle cell t in
  if fst (result r) =? 0
  then snd (result r) = Some (led_extract response)
       /\ 0 <= led_extract response <= 15
       /\ cell <> None /\ ready handle = true
  else fst (result r) = -1 /\ snd (result r) = cell.
Proof.
  cbv zeta.
  destruct handle as [[h [|] name] |]; destruct cell as [v |];
    by_shift_cases; try (split; reflexivity);
    (split; [reflexivity |]);
    (split; [apply led_extract_range |]);
    (split; [discriminate | reflexivity]).
Qed.

(** X8: [jtag_shift_dr] on a connected handle, for any data, buffer and bit
    count.  It follows the three-call DR plan and stops at the first failing
    call; it returns 0 exactly when no call failed.  The receive buffer is
    untouched when the entry TMS shift fails, and otherwise holds what the
    TDI shift left in it, also when that shift or the exit shift fails. *)
Theorem jtag_shift_dr_buffer h name tdi tdo n t :
  let handle := Some {| hif := h; is_connected := true; device_name := name |} in
  let entry := DjtgPutTmsBits h 0x01 3 t in
  let shift := DjtgPutTdiBits h tdi tdo n (adapter entry) in
  let r := jtag_shift_dr handle tdi tdo n t in
  fail_fast (fst (result r)) (log r)
    (dr_plan h tdi (match tdo with Some _ => true | None => false end) n)
  /\ (fst (result r) = 0 <-> some_failed (log r) = false)
  /\ snd (result r) = (if result entry then snd (result shift) else tdo).
Proof.
  cbv zeta. split; [apply jtag_shift_dr_fail_fast |].
  by_shift_cases; (split; [split; intros; first [reflexivity | discriminate] |]);
    reflexivity.
Qed.

(** *** test_led_patterns *)

Lemma shifts_app (a b : list Call) : shifts (a ++ b) = shifts a ++ shifts b.
Proof. apply filter_app. Qed.

Lemma shifts_firstn (n : nat) (plan : list Call) :
  shifts plan = plan -> shifts (firstn n plan) = firstn n plan.
Proof.
  revert n. induction plan as [| c plan IH]; intros n E; [now destruct n |].
  destruct n as [| n]; [reflexivity |].
  unfold shifts in *. cbn [filter firstn] in *.
  destruct (match c with
            | CDjtgPutTmsBits _ _ _ | CDjtgPutTdiBits _ _ _ _ => true
            | _ => false
            end) eqn:Ec.
  - injection E as E. f_equal. apply IH. exact E.
  - exfalso.
    pose proof (filter_length_le
                  (fun c => match c with
                            | CDjtgPutTmsBits _ _ _ | CDjtgPutTdiBits _ _ _ _ => true
                            | _ => false
                            end) plan) as Hle.
    rewrite E in Hle. cbn in Hle. lia.
Qed.

Lemma led_write_only_shifts handle p t :
  shifts (calls (led_write handle p t)) = calls (led_write handle p t).
Proof.
  destruct handle as [[h [|] name] |]; try reflexivity.
  pose proof (led_write_fail_fast h name p t) as [Hp _]. unfold calls.
  rewrite Hp. apply shifts_firstn. reflexivity.
Qed.

Lemma led_read_only_shifts handle cell t :
  shifts (calls (led_read handle cell t)) = calls (led_read handle cell t).
Proof.
  destruct handle as [[h [|] name] |]; try reflexivity.
  destruct cell as [v |]; [| reflexivity].
  pose proof (led_read_fail_fast h name v t) as [Hp _]. unfold calls.
  rewrite Hp. apply shifts_firstn. reflexivity.
Qed.






(** X10: on a null or unconnected handle [test_led_patterns] makes no Adept
    call and leaves the adapter as it was; each of the eight patterns is
    reported as a failed write. *)
Theorem sweep_not_ready handle t :
  ready handle = false ->
  test_led_patterns handle t = (tt, t, [])
  /\ test_loop_report handle test_patterns t = (repeat WriteFailed 8, t, []).
Proof.
  destruct handle as [[h [|] name] |]; cbn [ready is_connected]; intros E;
    try discriminate; split; reflexivity.
Qed.

Lemma led_write_calls_bound handle p t :
  (List.length (calls (led_write handle p t)) <= 7)%nat.
Proof.
  destruct handle as [[h [|] name] |]; try (cbn; lia).
  pose proof (led_write_fail_fast h name p t) as [Hp _]. unfold calls.
  rewrite Hp, length_firstn. cbn. lia.
Qed.

Lemma led_read_calls_bound handle cell t :
  (List.length (calls (led_read handle cell t)) <= 7)%nat.
Proof.
  destruct handle as [[h [|] name] |]; try (cbn; lia).
  destruct cell as [v |]; [| cbn; lia].
  pose proof (led_read_fail_fast h name v t) as [Hp _]. unfold calls.
  rewrite Hp, length_firstn. cbn. lia.
Qed.

Lemma test_loop_only_shifts handle ps t :
  shifts (calls (test_loop handle ps t)) = calls (test_loop handle ps t)
  /\ (List.length (calls (test_loop handle ps t)) <= 14 * List.length ps)%nat.
Proof.
  revert t. induction ps as [| p rest IH]; intros t; [split; [reflexivity | cbn; lia] |].
  cbn [test_loop]. rewrite !calls_bind.
  pose proof (led_write_only_shifts handle p t) as Hw.
  pose proof (led_write_calls_bound handle p t) as Hwb.
  set (t1 := adapter (led_write handle p t)).
  assert (Hmid :
    forall b : bool,
      let m := (if b then led_read handle (Some 0);;; ret tt else ret tt) t1 in
      shifts (calls m) = calls m /\ (List.length (calls m) <= 7)%nat).
  { intros [|]; cbv zeta; [| split; [reflexivity | cbn; lia]].
    rewrite calls_bind. cbn [ret calls log map]. rewrite app_nil_r.
    split; [apply led_read_only_shifts | apply led_read_calls_bound]. }
  specialize (Hmid (result (led_write handle p t) =? 0)). cbv zeta in Hmid.
  destruct Hmid as [Hm Hmb].
  match goal with
  | |- context [test_loop handle rest ?t2] => destruct (IH t2) as [IHs IHb]
  end.
  split.
  - rewrite !shifts_app, Hw, Hm, IHs. reflexivity.
  - rewrite !length_app. cbn [List.length]. lia.
Qed.

(** X11: every Adept call [test_led_patterns] makes is a TMS or TDI shift:
    the sweep never opens, closes, enables or disables anything.  It makes
    at most 112 of them, fourteen per pattern, so no shift is retried. *)
Theorem sweep_only_shifts handle t :
  shifts (calls (test_led_patterns handle t)) = calls (test_led_patterns handle t)
  /\ (List.length (calls (test_led_patterns handle t)) <= 112)%nat.
Proof.
  unfold test_led_patterns.
  destruct (test_loop_only_shifts handle test_patterns t) as [Hs Hb].
  split; [exact Hs |]. cbn in Hb. exact Hb.
Qed.

(** *** main *)

Lemma calls_DmgrOpen name t : calls (DmgrOpen name t) = [CDmgrOpen name].
Proof.
  unfold DmgrOpen, calls, log. destruct (adept_Open name t) as [[ok h] t']. reflexivity.
Qed.

Lemma calls_DmgrClose h t : calls (DmgrClose h t) = [CDmgrClose h].
Proof.
  unfold DmgrClose, calls, log. destruct (adept_Close h t) as [ok t']. reflexivity.
Qed.

(** The calls of [main], path by path. *)
Lemma main_calls strtol argv t :
  let init := DmgrOpen EmptyString t in
  let g := snd (result init) in
  let enum := enumerate_devices (adapter init) in
  let conn := connect_device (Some zero_handle) None (adapter enum) in
  let cmd := run_command strtol argv (snd (result conn)) (adapter conn) in
  let disc := disconnect_device (snd (result conn)) (adapter cmd) in
  calls (main strtol argv t)
  = if negb (fst (result init)) then calls init
    else if result enum =? 0 then calls init ++ calls enum ++ [CDmgrClose g]
    else if negb (fst (result conn) =? 0)
         then calls init ++ calls enum ++ calls conn ++ [CDmgrClose g]
         else calls init ++ calls enum ++ calls conn ++ calls cmd ++ calls disc
              ++ [CDmgrClose g].
Proof.
  cbv zeta. unfold main. rewrite calls_bind.
  destruct (fst (result (DmgrOpen EmptyString t))); cbn [negb];
    [| cbn [ret calls log map]; apply app_nil_r].
  f_equal. rewrite calls_bind.
  destruct (result (enumerate_devices (adapter (DmgrOpen EmptyString t))) =? 0).
  { f_equal. rewrite calls_bind, calls_DmgrClose. reflexivity. }
  f_equal. rewrite calls_bind.
  destruct (fst (result (connect_device (Some zero_handle) None
              (adapter (enumerate_devices (adapter (DmgrOpen EmptyString t))))))
            =? 0); cbn [negb].
  - f_equal. cbv zeta. rewrite calls_bind. f_equal.
    rewrite calls_bind. f_equal.
    rewrite calls_bind, calls_DmgrClose. reflexivity.
  - f_equal. rewrite calls_bind, calls_DmgrClose. reflexivity.
Qed.

Lemma connect_device_status_flag h name t :
  is_connected h = false ->
  let r := connect_device (Some h) name t in
  fst (result r) = 0 <-> ready (snd (result r)) = true.
Proof.
  intros Hc. destruct h as [hf c nm]. cbn in Hc. subst c.
  destruct name as [n |]; connect_cases; intuition congruence.
Qed.

Lemma disconnect_device_calls handle t :
  calls (disconnect_device handle t)
  = match handle with
    | Some h => if is_connected h then [CDjtgDisable (hif h); CDmgrClose (hif h)] else []
    | None => []
    end.
Proof.
  destruct handle as [[h [|] name] |]; unfold disconnect_device; unfold_adept; cbn;
    adept_cases; reflexivity.
Qed.

(** X12: what [main] leaves open.  When the manager cannot be opened,
    [main] makes no other call.  In every other run its last call closes
    the manager handle.  When enumeration and connection succeed, the two
    calls before that disable and close the connected device, whatever the
    command did; when one of them fails, [DjtgDisable] is never called. *)
Theorem main_closes_what_it_opened strtol argv t :
  let init := DmgrOpen EmptyString t in
  let g := snd (result init) in
  let enum := enumerate_devices (adapter init) in
  let conn := connect_device (Some zero_handle) None (adapter enum) in
  let hf := match snd (result conn) with Some h => hif h | None => 0 end in
  let cs := calls (main strtol argv t) in
  if negb (fst (result init)) then cs = [CDmgrOpen EmptyString]
  else if (result enum =? 0) || negb (fst (result conn) =? 0)
       then (exists before, cs = before ++ [CDmgrClose g])
            /\ (forall h, ~ In (CDjtgDisable h) cs)
       else exists before,
              cs = before ++ [CDjtgDisable hf; CDmgrClose hf; CDmgrClose g].
Proof.
  cbv zeta. rewrite main_calls. rewrite calls_DmgrOpen.
  destruct (fst (result (DmgrOpen EmptyString t))); cbn [negb]; [| reflexivity].
  set (t1 := adapter (DmgrOpen EmptyString t)).
  set (g := snd (result (DmgrOpen EmptyString t))).
  assert (Henum : forall h, ~ In (CDjtgDisable h) (calls (enumerate_devices t1))).
  { intros h HIn.
    unfold enumerate_devices in HIn. rewrite calls_bind in HIn.
    apply in_app_or in HIn. destruct HIn as [HIn | HIn].
    - unfold DmgrEnumDevices, calls, log in HIn.
      destruct (adept_EnumDevices t1) as [[ok n] t']. cbn [map fst snd In] in HIn.
      destruct HIn as [HIn | []]. discriminate.
    - destruct (negb (fst (result (DmgrEnumDevices t1)))); [destruct HIn |].
      rewrite calls_bind in HIn. rewrite (proj2 (list_devices_run _ _)) in HIn.
      cbn [ret calls log map] in HIn. rewrite app_nil_r in HIn.
      apply in_map_iff in HIn. destruct HIn as (i & Hi & _). discriminate. }
  destruct (result (enumerate_devices t1) =? 0); cbn [orb].
  { split.
    - exists ([CDmgrOpen EmptyString] ++ calls (enumerate_devices t1)).
      rewrite <- app_assoc. reflexivity.
    - intros h HIn. cbn [app In] in HIn. destruct HIn as [HIn | HIn]; [discriminate |].
      apply in_app_or in HIn. destruct HIn as [HIn | [HIn | []]];
        [exact (Henum h HIn) | discriminate]. }
  set (t2 := adapter (enumerate_devices t1)).
  pose proof (connect_device_status_flag zero_handle None t2 eq_refl) as Hflag.
  cbv zeta in Hflag.
  destruct (Z.eqb_spec (fst (result (connect_device (Some zero_handle) None t2))) 0)
    as [E | E]; cbn [negb].
  - apply Hflag in E.
    rewrite disconnect_device_calls.
    destruct (snd (result (connect_device (Some zero_handle) None t2)))
      as [[hf [|] nm] |]; cbn in E; try discriminate. cbn [hif is_connected].
    match goal with
    | |- exists _, ?a ++ ?b ++ ?c ++ ?d ++ _ ++ _ = _ => exists (a ++ b ++ c ++ d)
    end.
    rewrite <- !app_assoc. reflexivity.
  - split.
    + exists ([CDmgrOpen EmptyString] ++ calls (enumerate_devices t1)
              ++ calls (connect_device (Some zero_handle) None t2)).
      rewrite <- !app_assoc. reflexivity.
    + intros h HIn. cbn [app In] in HIn. destruct HIn as [HIn | HIn]; [discriminate |].
      apply in_app_or in HIn. destruct HIn as [HIn | HIn]; [exact (Henum h HIn) |].
      apply in_app_or in HIn. destruct HIn as [HIn | [HIn | []]]; [| discriminate].
      revert HIn E. unfold zero_handle. generalize t2. clear. intros t'.
      connect_cases; intros HIn E; try (exfalso; apply E; reflexivity);
        repeat (destruct HIn as [HIn | HIn]; try discriminate HIn); exact HIn.
Qed.

Lemma enumerate_devices_no_shift t : shifts (calls (enumerate_devices t)) = [].
Proof.
  unfold enumerate_devices. rewrite calls_bind, shifts_app.
  assert (H0 : shifts (calls (DmgrEnumDevices t)) = []).
  { unfold DmgrEnumDevices, calls, log.
    destruct (adept_EnumDevices t) as [[ok n] t']. reflexivity. }
  rewrite H0. destruct (negb (fst (result (DmgrEnumDevices t)))); [reflexivity |].
  rewrite calls_bind, (proj2 (list_devices_run _ _)), shifts_app.
  cbn [ret calls log map shifts filter]. rewrite app_nil_r. cbn [app].
  generalize (map Z.of_nat (seq 0 (Z.to_nat (snd (result (DmgrEnumDevices t)))))).
  intros l. induction l as [| i l IH]; [reflexivity | exact IH].
Qed.

Lemma connect_device_no_shift handle name t :
  shifts (calls (connect_device handle name t)) = [].
Proof.
  destruct handle as [[hf c nm] |]; [| reflexivity].
  destruct name as [n |]; connect_cases; reflexivity.
Qed.

Lemma disconnect_device_no_shift handle t :
  shifts (calls (disconnect_device handle t)) = [].
Proof.
  rewrite disconnect_device_calls.
  destruct handle as [[h [|] name] |]; reflexivity.
Qed.

(** X13: a command that is none of [test], [write] with an operand and
    [read] makes [main] talk to the adapter only to open, configure and
    close it: no TMS or TDI shift is issued.  This covers an unknown
    command and [write] given without its operand. *)
Theorem main_usage_makes_no_shift strtol argv t :
  (1 < List.length argv)%nat ->
  nth 1 argv EmptyString <> "test"%string ->
  nth 1 argv EmptyString <> "read"%string ->
  (nth 1 argv EmptyString <> "write"%string \/ (List.length argv <= 2)%nat) ->
  shifts (calls (main strtol argv t)) = [].
Proof.
  intros Hlen Htest Hread Hwrite.
  assert (Hcmd : forall h t', run_command strtol argv h t' = (tt, t', [])).
  { intros h t'. unfold run_command. cbv zeta.
    replace (1 <? Z.of_nat (List.length argv)) with true
      by (symmetry; apply Z.ltb_lt; lia).
    apply String.eqb_neq in Htest, Hread. rewrite Htest, Hread.
    replace (String.eqb (nth 1 argv EmptyString) "write" && (2 <? Z.of_nat (List.length argv)))
      with false; [reflexivity |].
    symmetry. apply andb_false_iff. destruct Hwrite as [Hw | Hw].
    - left. apply String.eqb_neq. exact Hw.
    - right. apply Z.ltb_ge. lia. }
  rewrite main_calls. cbv zeta. rewrite Hcmd.
  destruct (negb (fst (result (DmgrOpen EmptyString t)))).
  { rewrite calls_DmgrOpen. reflexivity. }
  destruct (_ =? 0).
  { rewrite !shifts_app, calls_DmgrOpen, enumerate_devices_no_shift. reflexivity. }
  destruct (negb _).
  - rewrite !shifts_app, calls_DmgrOpen, enumerate_devices_no_shift,
      connect_device_no_shift. reflexivity.
  - rewrite !shifts_app, calls_DmgrOpen, enumerate_devices_no_shift,
      connect_device_no_shift, disconnect_device_no_shift. reflexivity.
Qed.

Lemma led_write_cmd_data_mod_16 (x y : Z) :
  x mod 16 = y mod 16 ->
  led_write_cmd_data (x mod 256) = led_write_cmd_data (y mod 256).
Proof.
  intros E. unfold led_write_cmd_data.
  change 0xF with (Z.ones 4). rewrite !Z.land_ones by lia.
  change (2 ^ 4) with 16.
  rewrite !(Z.mod_mod_divide _ 256 16) by (exists 16; reflexivity).
  rewrite E. reflexivity.
Qed.

(** X14: [main] reduces the operand of [write] to a byte and [led_write]
    masks it to a nibble, so only the operand modulo 16 counts: two runs
    whose operands agree modulo 16 are the same run. *)
Theorem main_write_operand_mod_16 strtol prog a b t :
  strtol a mod 16 = strtol b mod 16 ->
  main strtol [prog; "write"%string; a] t = main strtol [prog; "write"%string; b] t.
Proof.
  intros E. unfold main, led_write. cbn [nth List.length].
  rewrite (led_write_cmd_data_mod_16 _ _ E). reflexivity.
Qed.

(** X15: without a command, [main] runs the pattern sweep: the run is the
    run of the [test] command. *)
Theorem main_default_is_test strtol argv prog t :
  (List.length argv <= 1)%nat ->
  main strtol argv t = main strtol [prog; "test"%string] t.
Proof.
  intros Hlen. destruct argv as [| a [| b rest]]; [reflexivity | reflexivity |].
  cbn in Hlen. lia.
Qed.

Lemma run_command_only_shifts strtol argv handle t :
  shifts (calls (run_command strtol argv handle t))
  = calls (run_command strtol argv handle t).
Proof.
  unfold run_command. cbv zeta.
  assert (Hsweep : shifts (calls (test_led_patterns handle t))
                   = calls (test_led_patterns handle t)).
  { unfold test_led_patterns. apply test_loop_only_shifts. }
  destruct (1 <? Z.of_nat (List.length argv)); [| exact Hsweep].
  destruct (String.eqb (nth 1 argv EmptyString) "test"); [exact Hsweep |].
  destruct (String.eqb (nth 1 argv EmptyString) "write" && (2 <? Z.of_nat (List.length argv))).
  { rewrite calls_bind. cbn [ret calls log map]. rewrite app_nil_r.
    apply led_write_only_shifts. }
  destruct (String.eqb (nth 1 argv EmptyString) "read"); [| reflexivity].
  rewrite calls_bind. cbn [ret calls log map]. rewrite app_nil_r.
  apply led_read_only_shifts.
Qed.

(** X17: the only TMS and TDI shifts of a run of [main] are those of the
    selected command, run on the handle [connect_device] left: opening,
    enumerating, connecting and closing shift nothing, and when the manager,
    the enumeration or the connection fails no shift is issued at all. *)
Theorem main_shifts_come_from_command strtol argv t :
  let init := DmgrOpen EmptyString t in
  let enum := enumerate_devices (adapter init) in
  let conn := connect_device (Some zero_handle) None (adapter enum) in
  shifts (calls (main strtol argv t))
  = if fst (result init) && negb (result enum =? 0) && (fst (result conn) =? 0)
    then calls (run_command strtol argv (snd (result conn)) (adapter conn))
    else [].
Proof.
  cbv zeta. rewrite main_calls. cbv zeta.
  destruct (fst (result (DmgrOpen EmptyString t))); cbn [negb andb].
  2: { rewrite calls_DmgrOpen. reflexivity. }
  destruct (_ =? 0); cbn [negb andb].
  { rewrite !shifts_app, calls_DmgrOpen, enumerate_devices_no_shift. reflexivity. }
  destruct (_ =? 0); cbn [negb].
  - rewrite !shifts_app, calls_DmgrOpen, enumerate_devices_no_shift,
      connect_device_no_shift, disconnect_device_no_shift,
      run_command_only_shifts.
    cbn [shifts filter app]. apply app_nil_r.
  - rewrite !shifts_app, calls_DmgrOpen, enumerate_devices_no_shift,
      connect_device_no_shift. reflexivity.
Qed.

(** X18: [connect_device] never clears the connected flag.  Called on a
    handle that is already marked connected, it leaves the handle marked
    connected whatever it returns, also when it returns -1. *)
Theorem connect_device_keeps_flag h name t :
  is_connected h = true ->
  ready (snd (result (connect_device (Some h) name t))) = true.
Proof.
  intros Hc. destruct h as [hf c nm]. cbn in Hc. subst c.
  destruct name as [n |]; connect_cases; reflexivity.
Qed.

(** *** The TAP during a register access *)

Lemma led_read_success_calls h name v t :
  let r := led_read
             (Some {| hif := h; is_connected := true; device_name := name |})
             (Some v) t in
  fst (result r) = 0 -> calls r = led_read_plan h.
Proof.
  cbv zeta. intros Hrc.
  pose proof (led_read_fail_fast h name v t) as [_ [[_ [Hp _]] | [Hm _]]].
  - exact Hp.
  - rewrite Hrc in Hm. discriminate.
Qed.

(** X16: a register access that returns 0, on any adapter and from any TAP
    state, with TMS bits clocked least significant first and TMS low during
    TDI shifts.  After its seven calls the TAP is in Test-Logic-Reset,
    Run-Test/Idle, Run-Test/Idle, Select-IR-Scan, Run-Test/Idle,
    Run-Test/Idle and Select-IR-Scan: both TDI shifts happen in
    Run-Test/Idle, and the TAP is never in Shift-IR or Shift-DR.  The same
    holds of [led_write] and of [led_read]. *)
Theorem register_access_tap_path h name p v t s :
  let handle := Some {| hif := h; is_connected := true; device_name := name |} in
  let path := [TestLogicReset; RunTestIdle; RunTestIdle; SelectIRScan;
               RunTestIdle; RunTestIdle; SelectIRScan] in
  let in_shift := fun x => TapState_eqb ShiftIR x || TapState_eqb ShiftDR x in
  (result (led_write handle p t) = 0 ->
   tap_trace bits_lsb_first s (calls (led_write handle p t)) = path
   /\ existsb in_shift
        (tap_visits bits_lsb_first s (calls (led_write handle p t))) = false)
  /\ (fst (result (led_read handle (Some v) t)) = 0 ->
      tap_trace bits_lsb_first s (calls (led_read handle (Some v) t)) = path
      /\ existsb in_shift
           (tap_visits bits_lsb_first s (calls (led_read handle (Some v) t))) = false).
Proof.
  cbv zeta. split; intros Hrc.
  - rewrite (proj1 (led_write_success_calls h name p t Hrc)).
    destruct s; split; vm_compute; reflexivity.
  - rewrite (led_read_success_calls h name v t Hrc).
    destruct s; split; vm_compute; reflexivity.
Qed.

End Coverage.

(** *** Runs on the scripted adapter *)

Lemma connect_device_flag_witness :
  is_connected zero_handle = false
  /\ (fst (result (connect_device (Some zero_handle) None (fail_at 2))) = 0
      <-> ready (snd (result (connect_device (Some zero_handle) None (fail_at 2)))) = true).
Proof.
  split; [reflexivity |].
  exact (proj1 (proj2 (connect_device_flag zero_handle None (fail_at 2) eq_refl))).
Defined.

Lemma connect_device_success_witness :
  fst (fst (result (DmgrGetDvc 0 ([] : script)))) = true
  /\ result (connect_device (Some zero_handle) None ([] : script)) = (0, open_handle).
Proof.
  split; [reflexivity |].
  exact (proj1 (connect_device_success zero_handle ([] : script)
                  eq_refl eq_refl eq_refl)).
Defined.

Lemma connect_then_disconnect_witness :
  is_connected zero_handle = false
  /\ calls (disconnect_device
              (snd (result (connect_device (Some zero_handle) None ([] : script))))
              (adapter (connect_device (Some zero_handle) None ([] : script))))
     = [CDjtgDisable 7; CDmgrClose 7].
Proof.
  split; [reflexivity |].
  exact (proj2 (proj2 (connect_then_disconnect zero_handle ([] : script) eq_refl))).
Defined.

Lemma sweep_not_ready_witness :
  ready closed_handle = false
  /\ test_led_patterns closed_handle (fail_at 3) = (tt, fail_at 3, []).
Proof.
  split; [reflexivity |].
  exact (proj1 (sweep_not_ready closed_handle (fail_at 3) eq_refl)).
Defined.

Lemma main_usage_makes_no_shift_witness :
  (1 < List.length ["prog"; "write"]%string)%nat
  /\ shifts (calls (main (fun _ => 0) ["prog"; "write"]%string ([] : script))) = [].
Proof.
  split; [cbn; lia |].
  apply (main_usage_makes_no_shift (fun _ => 0) ["prog"; "write"]%string ([] : script)).
  - cbn; lia.
  - discriminate.
  - discriminate.
  - right. cbn; lia.
Defined.

Lemma main_write_operand_mod_16_witness :
  (21 mod 16 = 5 mod 16)
  /\ main (fun s => if String.eqb s "0x15" then 21 else 5)
          ["prog"; "write"; "0x15"]%string ([] : script)
     = main (fun s => if String.eqb s "0x15" then 21 else 5)
         ["prog"; "write"; "5"]%string ([] : script).
Proof.
  split; [reflexivity |].
  apply (main_write_operand_mod_16 (fun s => if String.eqb s "0x15" then 21 else 5)
           "prog"%string "0x15"%string "5"%string ([] : script)).
  reflexivity.
Defined.

Lemma main_default_is_test_witness :
  (List.length ["prog"%string] <= 1)%nat
  /\ main (fun _ => 0) ["prog"%string] ([] : script)
     = main (fun _ => 0) ["prog"; "test"]%string ([] : script).
Proof.
  split; [cbn; lia |].
  apply (main_default_is_test (fun _ => 0) ["prog"%string] "prog"%string ([] : script)).
  cbn; lia.
Defined.

Lemma register_access_tap_path_witness :
  result (led_write open_handle 0xF ([] : script)) = 0
  /\ tap_trace bits_lsb_first Exit1DR (calls (led_write open_handle 0xF ([] : script)))
     = [TestLogicReset; RunTestIdle; RunTestIdle; SelectIRScan;
        RunTestIdle; RunTestIdle; SelectIRScan]
  /\ fst (result (led_read open_handle (Some 0) ([] : script))) = 0
  /\ tap_trace bits_lsb_first Exit1DR (calls (led_read open_handle (Some 0) ([] : script)))
     = [TestLogicReset; RunTestIdle; RunTestIdle; SelectIRScan;
        RunTestIdle; RunTestIdle; SelectIRScan].
Proof.
  destruct (register_access_tap_path 7 "JtagHs2"%string 0xF 0 ([] : script) Exit1DR)
    as [Hw Hr].
  split; [reflexivity |]. split; [exact (proj1 (Hw eq_refl)) |].
  split; [reflexivity | exact (proj1 (Hr eq_refl))].
Defined.

Lemma connect_device_keeps_flag_witness :
  is_connected (mk_handle 7 true "JtagHs2") = true
  /\ fst (result (connect_device open_handle None (fail_at 0))) = -1
  /\ ready (snd (result (connect_device open_handle None (fail_at 0)))) = true.
Proof.
  split; [reflexivity |]. split; [reflexivity |].
  exact (connect_device_keeps_flag (mk_handle 7 true "JtagHs2") None (fail_at 0) eq_refl).
Defined.
